(** * Buy-or-Not: the decision scoring engine

    A shallow embedding of the scoring pipeline of [src/App.tsx]
    (the [BuyOrNot] component): preset tables, cost model, resale offset,
    the three sub-scores, the aggregate decision score, the verdict and the
    sensitivity scenarios.

    Numbers.  A JavaScript [number] is modelled as an exact rational ([Q]):
    every field of the form state is a finite number, decimal literals such
    as [0.43] or [4.33] are the fractions they denote, and [+ - * /] are the
    exact operations.  Binary64 rounding, overflow and NaN are outside this
    model; the module [F64] below replays the cost formulas on Rocq's
    primitive binary64 floats for the one scenario where the exact bits
    matter.

    State.  The component keeps one [useState] cell per form field and
    derives everything else with [useMemo]; the derived values are pure
    functions of the cells, so the cells are gathered in one record
    ([ItemInputs]) and each derived value is a function of that record. *)

From Stdlib Require Import QArith Qround Qminmax Qabs Lqa Lia ZArith.
From Stdlib Require Import List String Bool.
From Stdlib Require PrimFloat.
From Stdlib Require DecimalString DecimalZ.
Import ListNotations.

Local Open Scope Q_scope.

(** ** Helpers *)

(** [Math.max] and [Math.min] on two arguments. *)
Definition Math_max (a b : Q) : Q := Qmax a b.
Definition Math_min (a b : Q) : Q := Qmin a b.

(** [Math.round]: the nearest integer, ties towards plus infinity. *)
Definition Math_round (x : Q) : Q := inject_Z (Qfloor (x + (1 # 2))).

(** [const clamp = (v, lo = 0, hi = 100) => Math.max(lo, Math.min(hi, v))] *)
Definition clamp3 (v lo hi : Q) : Q := Math_max lo (Math_min hi v).

(** [clamp(v)] with both default arguments. *)
Definition clamp (v : Q) : Q := clamp3 v 0 100.

(** [a < b] and [a >= b] as the booleans JavaScript computes. *)
Definition ltb (a b : Q) : bool := negb (Qle_bool b a).
Definition geb (a b : Q) : bool := Qle_bool b a.

(** ** Presets *)

Record ConditionPreset := {
  c_key : string;
  c_label : string;
  c_probMult : Q;
  c_priceMult : Q
}.

Record DemandPreset := {
  d_key : string;
  d_label : string;
  d_probMult : Q;
  d_timeHoursAdd : Q
}.

Definition CONDITION_PRESETS : list ConditionPreset := [
  {| c_key := "new"; c_label := "New (unopened)";
     c_probMult := 1; c_priceMult := 1 |};
  {| c_key := "like_new"; c_label := "Like New";
     c_probMult := 105 # 100; c_priceMult := 95 # 100 |};
  {| c_key := "good"; c_label := "Good";
     c_probMult := 1; c_priceMult := 9 # 10 |};
  {| c_key := "fair"; c_label := "Fair";
     c_probMult := 85 # 100; c_priceMult := 8 # 10 |};
  {| c_key := "poor"; c_label := "Poor";
     c_probMult := 7 # 10; c_priceMult := 65 # 100 |}
].

Definition DEMAND_PRESETS : list DemandPreset := [
  {| d_key := "high"; d_label := "High demand";
     d_probMult := 115 # 100; d_timeHoursAdd := - (1 # 2) |};
  {| d_key := "medium"; d_label := "Medium";
     d_probMult := 1; d_timeHoursAdd := 0 |};
  {| d_key := "low"; d_label := "Low demand";
     d_probMult := 8 # 10; d_timeHoursAdd := 3 # 4 |}
].

(** [xs[1]] of a table that is known to have a second entry; the last
    argument is what an out-of-range index would give and is never reached
    for the two tables above. *)
Definition second {A} (xs : list A) (dflt : A) : A := nth 1 xs dflt.

Definition condition_like_new : ConditionPreset :=
  {| c_key := "like_new"; c_label := "Like New";
     c_probMult := 105 # 100; c_priceMult := 95 # 100 |}.

Definition demand_medium : DemandPreset :=
  {| d_key := "medium"; d_label := "Medium";
     d_probMult := 1; d_timeHoursAdd := 0 |}.

(** [CONDITION_PRESETS.find((c) => c.key === condKey) ?? CONDITION_PRESETS[1]] *)
Definition lookupCondition (condKey : string) : ConditionPreset :=
  match find (fun c => String.eqb (c_key c) condKey) CONDITION_PRESETS with
  | Some c => c
  | None => second CONDITION_PRESETS condition_like_new
  end.

(** [DEMAND_PRESETS.find((d) => d.key === demandKey) ?? DEMAND_PRESETS[1]] *)
Definition lookupDemand (demandKey : string) : DemandPreset :=
  match find (fun d => String.eqb (d_key d) demandKey) DEMAND_PRESETS with
  | Some d => d
  | None => second DEMAND_PRESETS demand_medium
  end.

(** ** Inputs: the form state of [BuyOrNot] *)

Record ItemInputs := {
  (* core *)
  price : Q;
  taxRatePct : Q;
  budgetImpact : Q;
  needLevel : Q;
  useFrequency : Q;
  joyScore : Q;
  longevity : Q;
  workRelated : bool;
  (* sell-to-offset *)
  expectSalePrice : Q;
  saleProbabilityPct : Q;
  platformFees : Q;
  shipCost : Q;
  timeHours : Q;
  hourlyValue : Q;
  friction : Q;
  resaleAggressive : bool;
  (* condition and demand *)
  condKey : string;
  demandKey : string;
  (* wait-for-sale *)
  simulateWait : bool;
  targetDiscountPct : Q;
  monthsToWait : Q;
  (* per-use *)
  monthsOwn : Q;
  usesPerWeek : Q;
  (* minimalism nudge *)
  keepOldItem : bool;
  minimalismStrength : Q;
  (* risk / logistics *)
  returnPolicy : Q;
  warranty : Q;
  spaceFit : Q;
  altAvailable : Q;
  urgency : Q;
  (* weights *)
  wFinancial : Q;
  wUtility : Q;
  wRisk : Q
}.

(** The initial [useState] values of the component. *)
Definition initialInputs : ItemInputs := {|
  price := 500; taxRatePct := 13; budgetImpact := 5; needLevel := 4;
  useFrequency := 7; joyScore := 6; longevity := 6; workRelated := false;
  expectSalePrice := 250; saleProbabilityPct := 80; platformFees := 25;
  shipCost := 20; timeHours := 2; hourlyValue := 40; friction := 10;
  resaleAggressive := false;
  condKey := "like_new"; demandKey := "medium";
  simulateWait := false; targetDiscountPct := 10; monthsToWait := 1;
  monthsOwn := 24; usesPerWeek := 5;
  keepOldItem := false; minimalismStrength := 6;
  returnPolicy := 7; warranty := 6; spaceFit := 8; altAvailable := 5;
  urgency := 4;
  wFinancial := 45 # 100; wUtility := 4 # 10; wRisk := 15 # 100
|}.

(** Field updates ([setBudgetImpact], [setMinimalismStrength], ...): a new
    snapshot that differs in one cell. *)
Definition setBudgetImpact (v : Q) (i : ItemInputs) : ItemInputs := {|
  price := price i; taxRatePct := taxRatePct i; budgetImpact := v;
  needLevel := needLevel i; useFrequency := useFrequency i;
  joyScore := joyScore i; longevity := longevity i;
  workRelated := workRelated i; expectSalePrice := expectSalePrice i;
  saleProbabilityPct := saleProbabilityPct i;
  platformFees := platformFees i; shipCost := shipCost i;
  timeHours := timeHours i; hourlyValue := hourlyValue i;
  friction := friction i; resaleAggressive := resaleAggressive i;
  condKey := condKey i; demandKey := demandKey i;
  simulateWait := simulateWait i; targetDiscountPct := targetDiscountPct i;
  monthsToWait := monthsToWait i; monthsOwn := monthsOwn i;
  usesPerWeek := usesPerWeek i; keepOldItem := keepOldItem i;
  minimalismStrength := minimalismStrength i;
  returnPolicy := returnPolicy i; warranty := warranty i;
  spaceFit := spaceFit i; altAvailable := altAvailable i;
  urgency := urgency i; wFinancial := wFinancial i;
  wUtility := wUtility i; wRisk := wRisk i
|}.

Definition setMinimalismStrength (v : Q) (i : ItemInputs) : ItemInputs := {|
  price := price i; taxRatePct := taxRatePct i;
  budgetImpact := budgetImpact i;
  needLevel := needLevel i; useFrequency := useFrequency i;
  joyScore := joyScore i; longevity := longevity i;
  workRelated := workRelated i; expectSalePrice := expectSalePrice i;
  saleProbabilityPct := saleProbabilityPct i;
  platformFees := platformFees i; shipCost := shipCost i;
  timeHours := timeHours i; hourlyValue := hourlyValue i;
  friction := friction i; resaleAggressive := resaleAggressive i;
  condKey := condKey i; demandKey := demandKey i;
  simulateWait := simulateWait i; targetDiscountPct := targetDiscountPct i;
  monthsToWait := monthsToWait i; monthsOwn := monthsOwn i;
  usesPerWeek := usesPerWeek i; keepOldItem := keepOldItem i;
  minimalismStrength := v;
  returnPolicy := returnPolicy i; warranty := warranty i;
  spaceFit := spaceFit i; altAvailable := altAvailable i;
  urgency := urgency i; wFinancial := wFinancial i;
  wUtility := wUtility i; wRisk := wRisk i
|}.

Definition setTargetDiscountPct (v : Q) (i : ItemInputs) : ItemInputs := {|
  price := price i; taxRatePct := taxRatePct i;
  budgetImpact := budgetImpact i;
  needLevel := needLevel i; useFrequency := useFrequency i;
  joyScore := joyScore i; longevity := longevity i;
  workRelated := workRelated i; expectSalePrice := expectSalePrice i;
  saleProbabilityPct := saleProbabilityPct i;
  platformFees := platformFees i; shipCost := shipCost i;
  timeHours := timeHours i; hourlyValue := hourlyValue i;
  friction := friction i; resaleAggressive := resaleAggressive i;
  condKey := condKey i; demandKey := demandKey i;
  simulateWait := simulateWait i; targetDiscountPct := v;
  monthsToWait := monthsToWait i; monthsOwn := monthsOwn i;
  usesPerWeek := usesPerWeek i; keepOldItem := keepOldItem i;
  minimalismStrength := minimalismStrength i;
  returnPolicy := returnPolicy i; warranty := warranty i;
  spaceFit := spaceFit i; altAvailable := altAvailable i;
  urgency := urgency i; wFinancial := wFinancial i;
  wUtility := wUtility i; wRisk := wRisk i
|}.

(** ** The engine: every [useMemo] of the component, as a function of the
    form state *)

Section Engine.

Variable i : ItemInputs.

Definition cond : ConditionPreset := lookupCondition (condKey i).
Definition demand : DemandPreset := lookupDemand (demandKey i).

(** *** Derived costs *)

Definition taxFor (p : Q) : Q := (p * taxRatePct i) / 100.

Definition stickerCost : Q := price i + taxFor (price i).

Definition stickerCostWait : Q :=
  let discounted := price i * (1 - targetDiscountPct i / 100) in
  discounted + taxFor discounted.

(** *** Adjusted by condition and demand *)

Definition adjSaleProb : Q :=
  clamp3 (saleProbabilityPct i * c_probMult cond * d_probMult demand) 0 100.

(** [demand.timeHoursAdd ?? 0]: every row of [DEMAND_PRESETS] defines
    [timeHoursAdd], so the [??] never takes its right-hand side. *)
Definition adjTimeHours : Q :=
  Math_max 0 (timeHours i + d_timeHoursAdd demand).

Definition adjSalePrice : Q := expectSalePrice i * c_priceMult cond.

(** *** Resale offset and effective cost *)

Definition resaleOffset : Q :=
  let prob := adjSaleProb / 100 in
  let gross := adjSalePrice * prob in
  let timeCost := adjTimeHours * hourlyValue i in
  let offset := gross - platformFees i - shipCost i - timeCost - friction i in
  Math_max 0 offset.

Definition effectiveCost : Q := Math_max 0 (stickerCost - resaleOffset).

(** *** Per-use *)

Definition totalExpectedUses : Q :=
  Math_max 1 (usesPerWeek i * (433 # 100) * monthsOwn i).

Definition costPerUse : Q := effectiveCost / totalExpectedUses.

(** *** Scores *)

Definition financialScore : Q :=
  let affordability := clamp (100 - budgetImpact i * 10) in
  let usage := clamp (useFrequency i * 8 + longevity i * 4) in
  let priceDrag := clamp (100 - (effectiveCost / Math_max 1 (price i)) * 50) in
  let resaleBonus :=
    if resaleAggressive i
    then clamp ((resaleOffset / Math_max 1 stickerCost) * 100) * (2 # 10)
    else 0 in
  let cpuBonus :=
    if ltb costPerUse 1 then 8 else if ltb costPerUse 3 then 5 else 0 in
  let base :=
    (43 # 100) * affordability +
    (32 # 100) * usage +
    (2 # 10) * priceDrag +
    resaleBonus +
    cpuBonus in
  clamp base.

Definition utilityScore : Q :=
  let need := needLevel i * 10 in
  let joy := joyScore i * 10 in
  let freq := useFrequency i * 8 in
  let work := if workRelated i then 10 else 0 in
  let aggressiveNudge :=
    if resaleAggressive i
    then Math_min 10 ((resaleOffset / Math_max 1 stickerCost) * 50)
    else 0 in
  clamp ((4 # 10) * need + (35 # 100) * freq + (25 # 100) * joy
         + work + aggressiveNudge).

Definition riskScore : Q :=
  let returns := returnPolicy i * 10 in
  let warr := warranty i * 8 in
  let space := spaceFit i * 8 in
  let alt := 100 - altAvailable i * 7 in
  let urg := urgency i * 6 in
  let clutterPenalty := if keepOldItem i then minimalismStrength i else 0 in
  let base :=
    (3 # 10) * returns +
    (25 # 100) * warr +
    (25 # 100) * space +
    (1 # 10) * alt +
    (1 # 10) * urg -
    clutterPenalty in
  clamp base.

Definition decisionScore : Q :=
  let weighted :=
    wFinancial i * financialScore + wUtility i * utilityScore
    + wRisk i * riskScore in
  Math_round (clamp weighted).

(** *** Verdict *)

Inductive Tone := green | blue | yellow | red.

Record Verdict := { label : string; tone : Tone }.

(** The body of the [verdict] memo, as a function of the score it reads. *)
Definition verdictOf (score : Q) : Verdict :=
  if geb score 80 then {| label := "Buy"; tone := green |}
  else if geb score 65 then {| label := "Lean Buy (watch price)"; tone := blue |}
  else if geb score 50 then {| label := "Wait / Re-evaluate"; tone := yellow |}
  else {| label := "Skip for now"; tone := red |}.

Definition verdict : Verdict := verdictOf decisionScore.

(** *** Sensitivity *)

Definition bestOffset : Q :=
  Math_max 0
    (adjSalePrice -
     platformFees i -
     shipCost i -
     adjTimeHours * hourlyValue i -
     friction i).

Definition scoreFor (sticker offset : Q) : Q :=
  let eff := Math_max 0 (sticker - offset) in
  let affordability := clamp (100 - budgetImpact i * 10) in
  let usage := clamp (useFrequency i * 8 + longevity i * 4) in
  let priceDrag := clamp (100 - (eff / Math_max 1 (price i)) * 50) in
  let resaleBonus :=
    if resaleAggressive i
    then clamp ((offset / Math_max 1 sticker) * 100) * (2 # 10)
    else 0 in
  let fin := clamp
    ((43 # 100) * affordability + (32 # 100) * usage
     + (2 # 10) * priceDrag + resaleBonus) in
  let utilAgg :=
    if resaleAggressive i
    then Math_min 10 ((offset / Math_max 1 sticker) * 50)
    else 0 in
  let util := clamp
    ((4 # 10) * needLevel i * 10 +
     (35 # 100) * useFrequency i * 8 +
     (25 # 100) * joyScore i * 10 +
     (if workRelated i then 10 else 0) +
     utilAgg) in
  let risk := riskScore in
  let weighted := wFinancial i * fin + wUtility i * util + wRisk i * risk in
  Math_round (clamp weighted).

Record Sensitivity := {
  current : Q;
  noResale : Q;
  bestResale : Q;
  waitSale : option Q      (* [null] when the wait simulation is off *)
}.

Definition sensitivity : Sensitivity := {|
  current := decisionScore;
  noResale := scoreFor stickerCost 0;
  bestResale := scoreFor stickerCost bestOffset;
  waitSale :=
    if simulateWait i
    then Some (scoreFor stickerCostWait resaleOffset)
    else None
|}.

End Engine.

(** ** Concrete snapshots used in the examples below *)

(** A snapshot whose selling costs (25 + 20 + 2*40 + 10 = 135) exceed the
    gross expected resale value (100 * 0.95 * 0.84 = 79.8): the offset is
    floored at zero and the effective cost is the whole sticker cost. *)
Definition costlyResale : ItemInputs := {|
  price := 500; taxRatePct := 13; budgetImpact := 5; needLevel := 4;
  useFrequency := 7; joyScore := 6; longevity := 6; workRelated := false;
  expectSalePrice := 100; saleProbabilityPct := 80; platformFees := 25;
  shipCost := 20; timeHours := 2; hourlyValue := 40; friction := 10;
  resaleAggressive := false;
  condKey := "like_new"; demandKey := "medium";
  simulateWait := false; targetDiscountPct := 10; monthsToWait := 1;
  monthsOwn := 24; usesPerWeek := 5;
  keepOldItem := false; minimalismStrength := 6;
  returnPolicy := 7; warranty := 6; spaceFit := 8; altAvailable := 5;
  urgency := 4;
  wFinancial := 45 # 100; wUtility := 4 # 10; wRisk := 15 # 100
|}.

(** The initial snapshot with a negative price (a refund or credit typed
    into the price field, which [Number(e.target.value)] accepts). *)
Definition negativePrice : ItemInputs := {|
  price := -100; taxRatePct := 13; budgetImpact := 5; needLevel := 4;
  useFrequency := 7; joyScore := 6; longevity := 6; workRelated := false;
  expectSalePrice := 250; saleProbabilityPct := 80; platformFees := 25;
  shipCost := 20; timeHours := 2; hourlyValue := 40; friction := 10;
  resaleAggressive := false;
  condKey := "like_new"; demandKey := "medium";
  simulateWait := false; targetDiscountPct := 10; monthsToWait := 1;
  monthsOwn := 24; usesPerWeek := 5;
  keepOldItem := false; minimalismStrength := 6;
  returnPolicy := 7; warranty := 6; spaceFit := 8; altAvailable := 5;
  urgency := 4;
  wFinancial := 45 # 100; wUtility := 4 # 10; wRisk := 15 # 100
|}.

(** The initial snapshot with the wait simulation switched on and the old
    item kept. *)
Definition waitingInputs : ItemInputs := {|
  price := 500; taxRatePct := 13; budgetImpact := 5; needLevel := 4;
  useFrequency := 7; joyScore := 6; longevity := 6; workRelated := false;
  expectSalePrice := 250; saleProbabilityPct := 80; platformFees := 25;
  shipCost := 20; timeHours := 2; hourlyValue := 40; friction := 10;
  resaleAggressive := true;
  condKey := "like_new"; demandKey := "medium";
  simulateWait := true; targetDiscountPct := 10; monthsToWait := 1;
  monthsOwn := 24; usesPerWeek := 5;
  keepOldItem := true; minimalismStrength := 6;
  returnPolicy := 7; warranty := 6; spaceFit := 8; altAvailable := 5;
  urgency := 4;
  wFinancial := 45 # 100; wUtility := 4 # 10; wRisk := 15 # 100
|}.

(** ** The cost formulas on binary64 floats

    The same source expressions as [stickerCost] ... [resaleOffset] above,
    with the operations of IEEE 754 binary64 (round to nearest even), which
    is what a JavaScript [number] computes.  Decimal literals denote the
    nearest binary64 value, as they do in JavaScript. *)

Module F64.

Import PrimFloat.
#[local] Set Warnings "-inexact-float".
Local Open Scope float_scope.

(** [Math.max(a, b)]: NaN if either argument is NaN; [+0] is larger than
    [-0]. *)
Definition Math_max (a b : float) : float :=
  if is_nan a || is_nan b then nan
  else if a <? b then b
  else if b <? a then a
  else if is_zero a && get_sign a then b else a.

(** [Math.min(a, b)]: NaN if either argument is NaN; [-0] is smaller than
    [+0]. *)
Definition Math_min (a b : float) : float :=
  if is_nan a || is_nan b then nan
  else if a <? b then a
  else if b <? a then b
  else if is_zero a && get_sign a then a else b.

Definition clamp3 (v lo hi : float) : float := Math_max lo (Math_min hi v).

Record ConditionPreset := {
  c_key : string;
  c_probMult : float;
  c_priceMult : float
}.

Record DemandPreset := {
  d_key : string;
  d_probMult : float;
  d_timeHoursAdd : float
}.

Definition CONDITION_PRESETS : list ConditionPreset := [
  {| c_key := "new"; c_probMult := 1.0; c_priceMult := 1.0 |};
  {| c_key := "like_new"; c_probMult := 1.05; c_priceMult := 0.95 |};
  {| c_key := "good"; c_probMult := 1.0; c_priceMult := 0.9 |};
  {| c_key := "fair"; c_probMult := 0.85; c_priceMult := 0.8 |};
  {| c_key := "poor"; c_probMult := 0.7; c_priceMult := 0.65 |}
].

Definition DEMAND_PRESETS : list DemandPreset := [
  {| d_key := "high"; d_probMult := 1.15; d_timeHoursAdd := -0.5 |};
  {| d_key := "medium"; d_probMult := 1.0; d_timeHoursAdd := 0 |};
  {| d_key := "low"; d_probMult := 0.8; d_timeHoursAdd := 0.75 |}
].

Definition lookupCondition (condKey : string) : ConditionPreset :=
  match find (fun c => String.eqb (c_key c) condKey) CONDITION_PRESETS with
  | Some c => c
  | None => second CONDITION_PRESETS
              {| c_key := "like_new"; c_probMult := 1.05; c_priceMult := 0.95 |}
  end.

Definition lookupDemand (demandKey : string) : DemandPreset :=
  match find (fun d => String.eqb (d_key d) demandKey) DEMAND_PRESETS with
  | Some d => d
  | None => second DEMAND_PRESETS
              {| d_key := "medium"; d_probMult := 1.0; d_timeHoursAdd := 0 |}
  end.

(** The form cells the cost formulas read. *)
Record CostInputs := {
  price : float;
  taxRatePct : float;
  expectSalePrice : float;
  saleProbabilityPct : float;
  platformFees : float;
  shipCost : float;
  timeHours : float;
  hourlyValue : float;
  friction : float;
  condKey : string;
  demandKey : string
}.

Section Costs.

Variable i : CostInputs.

Definition cond : ConditionPreset := lookupCondition (condKey i).
Definition demand : DemandPreset := lookupDemand (demandKey i).

Definition taxFor (p : float) : float := (p * taxRatePct i) / 100.

Definition stickerCost : float := price i + taxFor (price i).

Definition adjSaleProb : float :=
  clamp3 (saleProbabilityPct i * c_probMult cond * d_probMult demand) 0 100.

Definition adjTimeHours : float :=
  Math_max 0 (timeHours i + d_timeHoursAdd demand).

Definition adjSalePrice : float := expectSalePrice i * c_priceMult cond.

Definition resaleOffset : float :=
  let prob := adjSaleProb / 100 in
  let gross := adjSalePrice * prob in
  let timeCost := adjTimeHours * hourlyValue i in
  let offset := gross - platformFees i - shipCost i - timeCost - friction i in
  Math_max 0 offset.

End Costs.

(** The scenario of the specification's worked example. *)
Definition scenario : CostInputs := {|
  price := 500; taxRatePct := 13;
  expectSalePrice := 250; saleProbabilityPct := 80;
  platformFees := 25; shipCost := 20; timeHours := 2; hourlyValue := 40;
  friction := 10;
  condKey := "like_new"; demandKey := "medium"
|}.

(** The specification's formula for the offset of the scenario, evaluated
    in binary64. *)
Definition scenarioOffsetFormula : float :=
  Math_max 0 (237.5 * 0.84 - 25 - 20 - 2 * 40 - 10).

End F64.

(** ** The rest of the component: badge, score bars, weights, history *)

Definition setResaleAggressive (v : bool) (i : ItemInputs) : ItemInputs := {|
  price := price i; taxRatePct := taxRatePct i;
  budgetImpact := budgetImpact i;
  needLevel := needLevel i; useFrequency := useFrequency i;
  joyScore := joyScore i; longevity := longevity i;
  workRelated := workRelated i; expectSalePrice := expectSalePrice i;
  saleProbabilityPct := saleProbabilityPct i;
  platformFees := platformFees i; shipCost := shipCost i;
  timeHours := timeHours i; hourlyValue := hourlyValue i;
  friction := friction i; resaleAggressive := v;
  condKey := condKey i; demandKey := demandKey i;
  simulateWait := simulateWait i; targetDiscountPct := targetDiscountPct i;
  monthsToWait := monthsToWait i; monthsOwn := monthsOwn i;
  usesPerWeek := usesPerWeek i; keepOldItem := keepOldItem i;
  minimalismStrength := minimalismStrength i;
  returnPolicy := returnPolicy i; warranty := warranty i;
  spaceFit := spaceFit i; altAvailable := altAvailable i;
  urgency := urgency i; wFinancial := wFinancial i;
  wUtility := wUtility i; wRisk := wRisk i
|}.


(** The [perUseBadge] memo, as a function of the cost per use it reads. *)
Record Badge := { badgeTone : Tone; text : string }.

Definition perUseBadgeOf (cpu : Q) : Badge :=
  if ltb cpu 1 then {| badgeTone := green; text := "stellar per-use" |}
  else if ltb cpu 3 then {| badgeTone := blue; text := "good per-use" |}
  else if ltb cpu 7 then {| badgeTone := yellow; text := "ok per-use" |}
  else {| badgeTone := red; text := "weak per-use" |}.

Definition perUseBadge (i : ItemInputs) : Badge :=
  perUseBadgeOf (costPerUse i).

(** [ScoreBar]: the number shown as [v/100] and used as the bar width,
    [Math.max(0, Math.min(100, Math.round(value)))]. *)
Definition scoreBarValue (value : Q) : Q :=
  Math_max 0 (Math_min 100 (Math_round value)).

(** *** Saved history

    The form is the item name together with the numeric cells; an entry of
    the history stores a copy of the form and five of the derived values.
    An entry's [inputs] is a [Record<string, any>] in the source; the
    entries here are those [saveEntry] builds, which carry every cell. *)

Record FormState := {
  itemName : string;
  cells : ItemInputs
}.

Record Outputs := {
  o_decisionScore : Q;
  o_verdict : string;
  o_effectiveCost : Q;
  o_resaleOffset : Q;
  o_costPerUse : Q
}.

Record Entry := {
  e_id : string;
  e_createdAt : Z;
  e_name : string;
  e_inputs : FormState;
  e_outputs : Outputs
}.

Record AppState := {
  form : FormState;
  entries : list Entry;
  activeId : option string
}.

(** The template string of a [Date.now()] value: its decimal digits. *)
Definition timestampId (now : Z) : string :=
  DecimalString.NilEmpty.string_of_int (Z.to_int now).

(** [(e) => e.id === id] *)
Definition hasId (id : string) (e : Entry) : bool := String.eqb (e_id e) id.

(** The values [resetForm] writes into the cells. *)
Definition resetInputs : ItemInputs := {|
  price := 0; taxRatePct := 13; budgetImpact := 5; needLevel := 5;
  useFrequency := 5; joyScore := 5; longevity := 5; workRelated := false;
  expectSalePrice := 0; saleProbabilityPct := 50; platformFees := 0;
  shipCost := 0; timeHours := 1; hourlyValue := 30; friction := 0;
  resaleAggressive := false;
  condKey := "like_new"; demandKey := "medium";
  simulateWait := false; targetDiscountPct := 10; monthsToWait := 1;
  monthsOwn := 12; usesPerWeek := 3;
  keepOldItem := false; minimalismStrength := 6;
  returnPolicy := 7; warranty := 6; spaceFit := 7; altAvailable := 5;
  urgency := 4;
  wFinancial := 45 # 100; wUtility := 4 # 10; wRisk := 15 # 100
|}.

Definition resetForm (a : AppState) : AppState := {|
  form := {| itemName := ""; cells := resetInputs |};
  entries := entries a;
  activeId := None
|}.

(** The id [saveEntry] writes under: [activeId ?? `${Date.now()}`]. *)
Definition saveId (idClock : Z) (a : AppState) : string :=
  match activeId a with
  | Some x => x
  | None => timestampId idClock
  end.

(** The row [saveEntry] builds.  [Date.now()] is read twice, once for the
    id and once for [createdAt]; the two readings are the two clock
    arguments. *)
Definition saveRow (idClock createdClock : Z) (a : AppState) : Entry := {|
  e_id := saveId idClock a;
  e_createdAt := createdClock;
  e_name :=
    if String.eqb (itemName (form a)) "" then "Untitled"%string
    else itemName (form a);
  e_inputs := form a;
  e_outputs := {|
    o_decisionScore := decisionScore (cells (form a));
    o_verdict := label (verdict (cells (form a)));
    o_effectiveCost := effectiveCost (cells (form a));
    o_resaleOffset := resaleOffset (cells (form a));
    o_costPerUse := costPerUse (cells (form a))
  |}
|}.

(** [!activeId]: true for [null] and for the empty string. *)
Definition noActiveId (a : AppState) : bool :=
  match activeId a with
  | None => true
  | Some x => String.eqb x ""
  end.

Definition saveEntry (idClock createdClock : Z) (a : AppState) : AppState :=
  let id := saveId idClock a in
  let row := saveRow idClock createdClock a in
  {| form := form a;
     entries :=
       match find (hasId id) (entries a) with
       | Some _ => map (fun e => if hasId id e then row else e) (entries a)
       | None => row :: entries a
       end;
     activeId := if noActiveId a then Some id else activeId a |}.

Definition loadEntry (e : Entry) (a : AppState) : AppState := {|
  form := e_inputs e;
  entries := entries a;
  activeId := Some (e_id e)
|}.

(** The "Rename via Item" button: [setItemName(e.inputs.itemName)] and
    [setActiveId(e.id)]; the numeric cells stay as they are. *)
Definition renameViaItem (e : Entry) (a : AppState) : AppState := {|
  form := {| itemName := itemName (e_inputs e); cells := cells (form a) |};
  entries := entries a;
  activeId := Some (e_id e)
|}.

Definition deleteEntry (id : string) (a : AppState) : AppState := {|
  form := form a;
  entries := filter (fun e => negb (hasId id e)) (entries a);
  activeId := activeId a
|}.

(** The initial state of the component: the initial cells, the example
    item name, an empty history and no active entry. *)
Definition initialApp : AppState := {|
  form := {| itemName := "Example: Sony WH-1000XM5"; cells := initialInputs |};
  entries := [];
  activeId := None
|}.

(** The initial snapshot used once a week instead of five times. *)
Definition rareUse : ItemInputs := {|
  price := 500; taxRatePct := 13; budgetImpact := 5; needLevel := 4;
  useFrequency := 7; joyScore := 6; longevity := 6; workRelated := false;
  expectSalePrice := 250; saleProbabilityPct := 80; platformFees := 25;
  shipCost := 20; timeHours := 2; hourlyValue := 40; friction := 10;
  resaleAggressive := false;
  condKey := "like_new"; demandKey := "medium";
  simulateWait := false; targetDiscountPct := 10; monthsToWait := 1;
  monthsOwn := 24; usesPerWeek := 1;
  keepOldItem := false; minimalismStrength := 6;
  returnPolicy := 7; warranty := 6; spaceFit := 8; altAvailable := 5;
  urgency := 4;
  wFinancial := 45 # 100; wUtility := 4 # 10; wRisk := 15 # 100
|}.

(** The initial snapshot with a base sale probability of 100%. *)
Definition certainSale : ItemInputs := {|
  price := 500; taxRatePct := 13; budgetImpact := 5; needLevel := 4;
  useFrequency := 7; joyScore := 6; longevity := 6; workRelated := false;
  expectSalePrice := 250; saleProbabilityPct := 100; platformFees := 25;
  shipCost := 20; timeHours := 2; hourlyValue := 40; friction := 10;
  resaleAggressive := false;
  condKey := "like_new"; demandKey := "medium";
  simulateWait := false; targetDiscountPct := 10; monthsToWait := 1;
  monthsOwn := 24; usesPerWeek := 5;
  keepOldItem := false; minimalismStrength := 6;
  returnPolicy := 7; warranty := 6; spaceFit := 8; altAvailable := 5;
  urgency := 4;
  wFinancial := 45 # 100; wUtility := 4 # 10; wRisk := 15 # 100
|}.

(** ** Proof automation *)

(** Reduce the projections of an updated snapshot to the cells of the
    original one. *)
Ltac project_cells :=
  cbn [price taxRatePct budgetImpact needLevel useFrequency joyScore
       longevity workRelated expectSalePrice saleProbabilityPct platformFees
       shipCost timeHours hourlyValue friction resaleAggressive condKey
       demandKey simulateWait targetDiscountPct monthsToWait monthsOwn
       usesPerWeek keepOldItem minimalismStrength returnPolicy warranty
       spaceFit altAvailable urgency wFinancial wUtility wRisk
       setBudgetImpact setMinimalismStrength setTargetDiscountPct].

(** A derived cost that does not read the updated cell is unchanged. *)
Ltac frame :=
  unfold costPerUse, totalExpectedUses, effectiveCost, resaleOffset,
    bestOffset, stickerCostWait, stickerCost, taxFor, adjSaleProb,
    adjTimeHours, adjSalePrice, cond, demand;
  project_cells; reflexivity.

(** As [project_cells], for the aggressive-resale switch. *)
Ltac project_aggressive :=
  cbn [price taxRatePct budgetImpact needLevel useFrequency joyScore
       longevity workRelated expectSalePrice saleProbabilityPct platformFees
       shipCost timeHours hourlyValue friction resaleAggressive condKey
       demandKey simulateWait targetDiscountPct monthsToWait monthsOwn
       usesPerWeek keepOldItem minimalismStrength returnPolicy warranty
       spaceFit altAvailable urgency wFinancial wUtility wRisk
       setResaleAggressive].

Ltac frame_aggressive :=
  unfold costPerUse, totalExpectedUses, effectiveCost, resaleOffset,
    bestOffset, stickerCostWait, stickerCost, taxFor, adjSaleProb,
    adjTimeHours, adjSalePrice, cond, demand;
  project_aggressive; reflexivity.

(** ** Order facts about the helpers *)

Section Helpers.

Lemma Math_max_l (a b : Q) : a <= Math_max a b.
Proof. apply Q.le_max_l. Qed.

Lemma Math_max_r (a b : Q) : b <= Math_max a b.
Proof. apply Q.le_max_r. Qed.

Lemma Math_max_mono (a b b' : Q) : b <= b' -> Math_max a b <= Math_max a b'.
Proof. intro H. apply Q.max_le_compat_l, H. Qed.

Lemma Math_min_mono (a b b' : Q) : b <= b' -> Math_min a b <= Math_min a b'.
Proof. intro H. apply Q.min_le_compat_l, H. Qed.

Lemma Math_max_cases (a b : Q) :
  (b <= a /\ Math_max a b == a) \/ (a <= b /\ Math_max a b == b).
Proof.
  unfold Math_max.
  destruct (Q.max_spec a b) as [[H E] | [H E]].
  - right. split; [apply Qlt_le_weak, H | exact E].
  - left. split; [exact H | exact E].
Qed.

Lemma Math_max_one_pos (x : Q) : 1 <= Math_max 1 x.
Proof. apply Math_max_l. Qed.

Lemma clamp3_bounds (v lo hi : Q) :
  lo <= hi -> lo <= clamp3 v lo hi /\ clamp3 v lo hi <= hi.
Proof.
  intro H. unfold clamp3, Math_max, Math_min. split.
  - apply Q.le_max_l.
  - apply Q.max_lub; [exact H | apply Q.le_min_l].
Qed.

Lemma clamp_bounds (v : Q) : 0 <= clamp v /\ clamp v <= 100.
Proof. apply clamp3_bounds. discriminate. Qed.

Lemma clamp3_mono (v v' lo hi : Q) :
  v <= v' -> clamp3 v lo hi <= clamp3 v' lo hi.
Proof.
  intro H. unfold clamp3. apply Math_max_mono, Math_min_mono, H.
Qed.

Lemma clamp_mono (v v' : Q) : v <= v' -> clamp v <= clamp v'.
Proof. apply clamp3_mono. Qed.

Lemma Math_round_mono (x y : Q) : x <= y -> Math_round x <= Math_round y.
Proof.
  intro H. unfold Math_round.
  rewrite <- Zle_Qle. apply Qfloor_resp_le. lra.
Qed.

Lemma Math_round_integer (x : Q) : exists n : Z, Math_round x = inject_Z n.
Proof. eexists. reflexivity. Qed.

Lemma Math_round_bounds (x : Q) :
  0 <= x -> x <= 100 -> 0 <= Math_round x /\ Math_round x <= 100.
Proof.
  intros H0 H1. split.
  - change 0 with (Math_round 0). apply Math_round_mono, H0.
  - change 100 with (Math_round 100). apply Math_round_mono, H1.
Qed.

Lemma ltb_true (a b : Q) : ltb a b = true <-> a < b.
Proof.
  unfold ltb. rewrite negb_true_iff, <- not_true_iff_false, Qle_bool_iff.
  split; [apply Qnot_le_lt | apply Qlt_not_le].
Qed.

Lemma geb_true (a b : Q) : geb a b = true <-> b <= a.
Proof. unfold geb. apply Qle_bool_iff. Qed.

Lemma geb_false (a b : Q) : geb a b = false <-> a < b.
Proof.
  unfold geb. rewrite <- not_true_iff_false, Qle_bool_iff.
  split; [apply Qnot_le_lt | apply Qlt_not_le].
Qed.

Lemma mul_mono_l (z x y : Q) : 0 <= z -> x <= y -> z * x <= z * y.
Proof.
  intros Hz H. rewrite (Qmult_comm z x), (Qmult_comm z y).
  apply Qmult_le_compat_r; assumption.
Qed.

Lemma div_mono (m x y : Q) : 0 < m -> x <= y -> x / m <= y / m.
Proof.
  intros Hm H. unfold Qdiv. apply Qmult_le_compat_r; [exact H |].
  apply Qlt_le_weak, Qinv_lt_0_compat, Hm.
Qed.

Lemma Math_max_one_gt0 (x : Q) : 0 < Math_max 1 x.
Proof. pose proof (Math_max_l 1 x). lra. Qed.

End Helpers.

(** ** Preset lookups *)

Lemma find_In {A} (f : A -> bool) (xs : list A) (x : A) :
  find f xs = Some x -> In x xs /\ f x = true.
Proof. apply find_some. Qed.

Lemma lookupCondition_unknown (key : string) :
  (forall c, In c CONDITION_PRESETS -> c_key c <> key) ->
  lookupCondition key = condition_like_new.
Proof.
  intro H. unfold lookupCondition.
  destruct (find _ CONDITION_PRESETS) as [c|] eqn:E.
  - apply find_In in E. destruct E as [Hin Heq].
    apply String.eqb_eq in Heq. exfalso. exact (H c Hin Heq).
  - reflexivity.
Qed.

Lemma lookupDemand_unknown (key : string) :
  (forall d, In d DEMAND_PRESETS -> d_key d <> key) ->
  lookupDemand key = demand_medium.
Proof.
  intro H. unfold lookupDemand.
  destruct (find _ DEMAND_PRESETS) as [d|] eqn:E.
  - apply find_In in E. destruct E as [Hin Heq].
    apply String.eqb_eq in Heq. exfalso. exact (H d Hin Heq).
  - reflexivity.
Qed.

Lemma lookupCondition_In (key : string) :
  In (lookupCondition key) CONDITION_PRESETS.
Proof.
  unfold lookupCondition.
  destruct (find _ CONDITION_PRESETS) as [c|] eqn:E.
  - apply find_In in E. tauto.
  - simpl. tauto.
Qed.

Lemma lookupDemand_In (key : string) :
  In (lookupDemand key) DEMAND_PRESETS.
Proof.
  unfold lookupDemand.
  destruct (find _ DEMAND_PRESETS) as [d|] eqn:E.
  - apply find_In in E. tauto.
  - simpl. tauto.
Qed.

Lemma lookupCondition_known (key : string) :
  (exists c, In c CONDITION_PRESETS /\ c_key c = key) ->
  c_key (lookupCondition key) = key.
Proof.
  intros [c [Hin Hk]]. unfold lookupCondition.
  destruct (find _ CONDITION_PRESETS) as [c'|] eqn:E.
  - apply find_In in E. destruct E as [_ Heq]. apply String.eqb_eq, Heq.
  - exfalso. pose proof (find_none _ _ E c Hin) as Hn. simpl in Hn.
    rewrite Hk, String.eqb_refl in Hn. discriminate.
Qed.

Lemma lookupDemand_known (key : string) :
  (exists d, In d DEMAND_PRESETS /\ d_key d = key) ->
  d_key (lookupDemand key) = key.
Proof.
  intros [d [Hin Hk]]. unfold lookupDemand.
  destruct (find _ DEMAND_PRESETS) as [d'|] eqn:E.
  - apply find_In in E. destruct E as [_ Heq]. apply String.eqb_eq, Heq.
  - exfalso. pose proof (find_none _ _ E d Hin) as Hn. simpl in Hn.
    rewrite Hk, String.eqb_refl in Hn. discriminate.
Qed.


Lemma demand_multipliers (d : DemandPreset) :
  In d DEMAND_PRESETS -> 0 < d_probMult d.
Proof.
  simpl. intros [H|[H|[H|[]]]]; subst d; reflexivity.
Qed.

(** C9.  Both preset lookups are total: whatever the key, the result is a
    row of the table; a key of the table gives a row with that key; any
    other key gives the designated default row, "like_new" for the
    condition and "medium" for the demand. *)
Theorem preset_lookup_total :
  forall key : string,
    (In (lookupCondition key) CONDITION_PRESETS /\
     ((exists c, In c CONDITION_PRESETS /\ c_key c = key) ->
      c_key (lookupCondition key) = key) /\
     ((forall c, In c CONDITION_PRESETS -> c_key c <> key) ->
      lookupCondition key = condition_like_new /\
      c_key (lookupCondition key) = "like_new"%string)) /\
    (In (lookupDemand key) DEMAND_PRESETS /\
     ((exists d, In d DEMAND_PRESETS /\ d_key d = key) ->
      d_key (lookupDemand key) = key) /\
     ((forall d, In d DEMAND_PRESETS -> d_key d <> key) ->
      lookupDemand key = demand_medium /\
      d_key (lookupDemand key) = "medium"%string)).
Proof.
  intro key. split; (split; [| split]).
  - apply lookupCondition_In.
  - apply lookupCondition_known.
  - intro H. rewrite (lookupCondition_unknown key H). split; reflexivity.
  - apply lookupDemand_In.
  - apply lookupDemand_known.
  - intro H. rewrite (lookupDemand_unknown key H). split; reflexivity.
Qed.

(** The lookups on concrete keys: two rows of each table and two keys that
    are in neither. *)
Example lookup_examples :
  c_priceMult (lookupCondition "poor") = 65 # 100 /\
  lookupCondition "like_new" = condition_like_new /\
  lookupCondition "mint" = condition_like_new /\
  lookupCondition "" = condition_like_new /\
  d_timeHoursAdd (lookupDemand "high") = - (1 # 2) /\
  lookupDemand "medium" = demand_medium /\
  lookupDemand "HIGH" = demand_medium /\
  lookupDemand "" = demand_medium.
Proof. repeat split. Qed.

(** ** Ranges of the costs and scores *)

Lemma resaleOffset_nonneg (i : ItemInputs) : 0 <= resaleOffset i.
Proof. unfold resaleOffset. apply Math_max_l. Qed.

Lemma effectiveCost_nonneg (i : ItemInputs) : 0 <= effectiveCost i.
Proof. unfold effectiveCost. apply Math_max_l. Qed.

Lemma bestOffset_nonneg (i : ItemInputs) : 0 <= bestOffset i.
Proof. unfold bestOffset. apply Math_max_l. Qed.

(** When fees, shipping, time cost and friction reach the gross expected
    resale value, the offset is exactly zero. *)
Lemma resaleOffset_floor (i : ItemInputs) :
  adjSalePrice i * (adjSaleProb i / 100)
    <= platformFees i + shipCost i + adjTimeHours i * hourlyValue i + friction i ->
  resaleOffset i == 0.
Proof.
  intro H. unfold resaleOffset. cbv zeta.
  destruct (Math_max_cases 0
    (adjSalePrice i * (adjSaleProb i / 100) - platformFees i - shipCost i
     - adjTimeHours i * hourlyValue i - friction i)) as [[_ E] | [Hle E]].
  - exact E.
  - rewrite E. lra.
Qed.


Example costlyResale_floor :
  adjSalePrice costlyResale * (adjSaleProb costlyResale / 100) == 798 # 10 /\
  resaleOffset costlyResale == 0 /\
  effectiveCost costlyResale == 565.
Proof. repeat split; vm_compute; reflexivity. Qed.





Lemma scoreFor_range (i : ItemInputs) (sticker offset : Q) :
  0 <= scoreFor i sticker offset /\ scoreFor i sticker offset <= 100.
Proof.
  unfold scoreFor. cbv zeta.
  apply Math_round_bounds; apply clamp_bounds.
Qed.



(** ** Verdict banding *)

Lemma verdictOf_buy (s : Q) : 80 <= s -> label (verdictOf s) = "Buy"%string.
Proof.
  intro H. unfold verdictOf.
  rewrite (proj2 (geb_true s 80) H). reflexivity.
Qed.

Lemma verdictOf_lean (s : Q) :
  65 <= s -> s < 80 -> label (verdictOf s) = "Lean Buy (watch price)"%string.
Proof.
  intros H1 H2. unfold verdictOf.
  rewrite (proj2 (geb_false s 80) H2), (proj2 (geb_true s 65) H1).
  reflexivity.
Qed.

Lemma verdictOf_wait (s : Q) :
  50 <= s -> s < 65 -> label (verdictOf s) = "Wait / Re-evaluate"%string.
Proof.
  intros H1 H2. unfold verdictOf.
  assert (H3 : s < 80) by lra.
  rewrite (proj2 (geb_false s 80) H3), (proj2 (geb_false s 65) H2),
    (proj2 (geb_true s 50) H1).
  reflexivity.
Qed.

Lemma verdictOf_skip (s : Q) :
  s < 50 -> label (verdictOf s) = "Skip for now"%string.
Proof.
  intro H. unfold verdictOf.
  assert (H2 : s < 65) by lra. assert (H3 : s < 80) by lra.
  rewrite (proj2 (geb_false s 80) H3), (proj2 (geb_false s 65) H2),
    (proj2 (geb_false s 50) H).
  reflexivity.
Qed.

(** C2.  The verdict is read off the decision score by bands whose lower
    bounds are inclusive: at least 80 is "Buy", otherwise at least 65 is
    "Lean Buy (watch price)", otherwise at least 50 is "Wait / Re-evaluate",
    otherwise "Skip for now"; 80, 65 and 50 fall in the higher band and 79,
    64 and 49 in the lower one. *)
Theorem verdict_banding :
  (forall i : ItemInputs, verdict i = verdictOf (decisionScore i)) /\
  (forall s : Q, 80 <= s -> label (verdictOf s) = "Buy"%string) /\
  (forall s : Q, 65 <= s -> s < 80 ->
     label (verdictOf s) = "Lean Buy (watch price)"%string) /\
  (forall s : Q, 50 <= s -> s < 65 ->
     label (verdictOf s) = "Wait / Re-evaluate"%string) /\
  (forall s : Q, s < 50 -> label (verdictOf s) = "Skip for now"%string) /\
  label (verdictOf 80) = "Buy"%string /\
  label (verdictOf 79) = "Lean Buy (watch price)"%string /\
  label (verdictOf 65) = "Lean Buy (watch price)"%string /\
  label (verdictOf 64) = "Wait / Re-evaluate"%string /\
  label (verdictOf 50) = "Wait / Re-evaluate"%string /\
  label (verdictOf 49) = "Skip for now"%string.
Proof.
  split; [reflexivity |].
  split; [exact verdictOf_buy |].
  split; [exact verdictOf_lean |].
  split; [exact verdictOf_wait |].
  split; [exact verdictOf_skip |].
  repeat split.
Qed.

(** ** Effective cost against sticker cost *)

Lemma stickerCost_nonneg (i : ItemInputs) :
  0 <= price i -> -100 <= taxRatePct i -> 0 <= stickerCost i.
Proof.
  intros Hp Ht. unfold stickerCost, taxFor.
  assert (E : price i + price i * taxRatePct i / 100
              == price i * ((100 + taxRatePct i) * (1 # 100))) by field.
  rewrite E. apply Qmult_le_0_compat; [exact Hp | lra].
Qed.

Lemma effectiveCost_above_negative_sticker (i : ItemInputs) :
  stickerCost i < 0 -> stickerCost i < effectiveCost i.
Proof.
  intro H. pose proof (effectiveCost_nonneg i). lra.
Qed.

(** C5, as the code has it.  Whenever the sticker cost is not negative, the
    effective cost is at most the sticker cost. *)
Theorem effectiveCost_le_stickerCost :
  forall i : ItemInputs,
    0 <= stickerCost i -> effectiveCost i <= stickerCost i.
Proof.
  intros i H. unfold effectiveCost.
  pose proof (resaleOffset_nonneg i) as Ho.
  destruct (Math_max_cases 0 (stickerCost i - resaleOffset i))
    as [[_ E] | [_ E]]; rewrite E; lra.
Qed.

Lemma effectiveCost_le_stickerCost_witness :
  0 <= stickerCost initialInputs /\
  effectiveCost initialInputs <= stickerCost initialInputs.
Proof.
  split.
  - vm_compute. discriminate.
  - apply (effectiveCost_le_stickerCost initialInputs).
    vm_compute. discriminate.
Defined.

(** C5 as stated fails: with a price of -100 the sticker cost is -113 and
    the effective cost is floored at 0, above the sticker cost. *)
Lemma effectiveCost_exceeds_negative_sticker :
  stickerCost negativePrice == -113 /\
  effectiveCost negativePrice == 0 /\
  ~ (forall i : ItemInputs, effectiveCost i <= stickerCost i).
Proof.
  split; [vm_compute; reflexivity |].
  split; [vm_compute; reflexivity |].
  intro H. specialize (H negativePrice). vm_compute in H. apply H. reflexivity.
Qed.

(** ** Monotonicity in budget impact and in minimalism strength *)

Section BudgetFrame.

Variables (i : ItemInputs) (b : Q).

(** Changing the budget-impact cell leaves every cost untouched. *)
Lemma effectiveCost_setBudgetImpact :
  effectiveCost (setBudgetImpact b i) = effectiveCost i.
Proof. frame. Qed.

Lemma resaleOffset_setBudgetImpact :
  resaleOffset (setBudgetImpact b i) = resaleOffset i.
Proof. frame. Qed.

Lemma stickerCost_setBudgetImpact :
  stickerCost (setBudgetImpact b i) = stickerCost i.
Proof. frame. Qed.

Lemma costPerUse_setBudgetImpact :
  costPerUse (setBudgetImpact b i) = costPerUse i.
Proof. frame. Qed.

End BudgetFrame.

Lemma financialScore_budget_mono (i : ItemInputs) (b b' : Q) :
  b <= b' ->
  financialScore (setBudgetImpact b' i) <= financialScore (setBudgetImpact b i).
Proof.
  intro H. unfold financialScore. cbv zeta.
  rewrite !effectiveCost_setBudgetImpact, !resaleOffset_setBudgetImpact,
    !stickerCost_setBudgetImpact, !costPerUse_setBudgetImpact.
  project_cells.
  apply clamp_mono.
  assert (Ha : clamp (100 - b' * 10) <= clamp (100 - b * 10))
    by (apply clamp_mono; lra).
  lra.
Qed.

Lemma riskScore_minimalism_mono (i : ItemInputs) (m m' : Q) :
  keepOldItem i = true -> m <= m' ->
  riskScore (setMinimalismStrength m' i) <= riskScore (setMinimalismStrength m i).
Proof.
  intros Hk H. unfold riskScore. cbv zeta.
  project_cells.
  rewrite Hk. apply clamp_mono. lra.
Qed.

(** C6.  With every other cell fixed, a larger budget impact never gives a
    larger financial score; and, when the old item is kept, a larger
    minimalism strength never gives a larger risk score. *)
Theorem budget_and_minimalism_monotone :
  forall (i : ItemInputs) (lo hi : Q),
    lo <= hi ->
    financialScore (setBudgetImpact hi i)
      <= financialScore (setBudgetImpact lo i) /\
    (keepOldItem i = true ->
     riskScore (setMinimalismStrength hi i)
       <= riskScore (setMinimalismStrength lo i)).
Proof.
  intros i lo hi H. split.
  - apply financialScore_budget_mono, H.
  - intro Hk. apply riskScore_minimalism_mono; assumption.
Qed.

Lemma budget_and_minimalism_monotone_witness :
  3 <= 8 /\
  financialScore (setBudgetImpact 8 waitingInputs)
    <= financialScore (setBudgetImpact 3 waitingInputs) /\
  riskScore (setMinimalismStrength 8 waitingInputs)
    <= riskScore (setMinimalismStrength 3 waitingInputs).
Proof.
  assert (H : 3 <= 8) by discriminate.
  destruct (budget_and_minimalism_monotone waitingInputs 3 8 H) as [Hf Hr].
  split; [exact H |].
  split; [exact Hf | apply Hr; reflexivity].
Defined.

(** The two scores do move on the concrete snapshot: the drop is strict. *)
Example monotone_strict_example :
  financialScore (setBudgetImpact 8 waitingInputs)
    < financialScore (setBudgetImpact 3 waitingInputs) /\
  riskScore (setMinimalismStrength 8 waitingInputs)
    < riskScore (setMinimalismStrength 3 waitingInputs).
Proof. split; vm_compute; reflexivity. Qed.

(** ** The wait-for-sale scenario *)




Example waitSale_examples :
  waitSale (sensitivity initialInputs) = None /\
  stickerCostWait waitingInputs == 5085 # 10 /\
  resaleOffset waitingInputs == 645 # 10 /\
  (exists w, waitSale (sensitivity waitingInputs) = Some w /\ w == 58).
Proof.
  split; [reflexivity |].
  split; [vm_compute; reflexivity |].
  split; [vm_compute; reflexivity |].
  eexists. split; [reflexivity | vm_compute; reflexivity].
Qed.

(** ** Best-case offset against the live offset *)






Example offsets_at_defaults :
  resaleOffset initialInputs == 645 # 10 /\
  bestOffset initialInputs == 1025 # 10.
Proof. split; vm_compute; reflexivity. Qed.

(** ** Sensitivity scenarios *)

Lemma weighted_mono (wf wu wr f f' u u' r : Q) :
  0 <= wf -> 0 <= wu -> f <= f' -> u <= u' ->
  wf * f + wu * u + wr * r <= wf * f' + wu * u' + wr * r.
Proof.
  intros Hwf Hwu Hf Hu.
  pose proof (mul_mono_l wf f f' Hwf Hf).
  pose proof (mul_mono_l wu u u' Hwu Hu).
  lra.
Qed.

(** With non-negative financial and utility weights, [scoreFor] never
    decreases when the offset grows (the sticker cost being fixed). *)
Lemma scoreFor_mono_offset (i : ItemInputs) (sticker o o' : Q) :
  0 <= wFinancial i -> 0 <= wUtility i -> o <= o' ->
  scoreFor i sticker o <= scoreFor i sticker o'.
Proof.
  intros Hwf Hwu H. unfold scoreFor. cbv zeta.
  apply Math_round_mono, clamp_mono.
  assert (Hq : o / Math_max 1 sticker <= o' / Math_max 1 sticker)
    by (apply div_mono; [apply Math_max_one_gt0 | exact H]).
  assert (He : Math_max 0 (sticker - o') / Math_max 1 (price i)
               <= Math_max 0 (sticker - o) / Math_max 1 (price i)).
  { apply div_mono; [apply Math_max_one_gt0 |].
    apply Math_max_mono. lra. }
  apply weighted_mono; try assumption.
  - apply clamp_mono.
    assert (Hd : clamp (100 - Math_max 0 (sticker - o) / Math_max 1 (price i) * 50)
                 <= clamp (100 - Math_max 0 (sticker - o') / Math_max 1 (price i) * 50))
      by (apply clamp_mono; lra).
    destruct (resaleAggressive i).
    + assert (Hb : clamp (o / Math_max 1 sticker * 100)
                   <= clamp (o' / Math_max 1 sticker * 100))
        by (apply clamp_mono; lra).
      lra.
    + lra.
  - apply clamp_mono.
    destruct (resaleAggressive i).
    + assert (Hn : Math_min 10 (o / Math_max 1 sticker * 50)
                   <= Math_min 10 (o' / Math_max 1 sticker * 50))
        by (apply Math_min_mono; lra).
      lra.
    + lra.
Qed.

(** The live decision score is at least [scoreFor] at the live sticker cost
    and offset: the two differ by the per-use bonus, which only the live
    financial score adds. *)
Lemma scoreFor_live_le_decisionScore (i : ItemInputs) :
  0 <= wFinancial i ->
  scoreFor i (stickerCost i) (resaleOffset i) <= decisionScore i.
Proof.
  intro Hwf. unfold scoreFor, decisionScore. cbv zeta.
  apply Math_round_mono, clamp_mono.
  assert (Hf : clamp
      ((43 # 100) * clamp (100 - budgetImpact i * 10)
       + (32 # 100) * clamp (useFrequency i * 8 + longevity i * 4)
       + (2 # 10) * clamp (100 - Math_max 0 (stickerCost i - resaleOffset i)
                                 / Math_max 1 (price i) * 50)
       + (if resaleAggressive i
          then clamp (resaleOffset i / Math_max 1 (stickerCost i) * 100) * (2 # 10)
          else 0))
    <= financialScore i).
  { unfold financialScore, effectiveCost. cbv zeta. apply clamp_mono.
    destruct (ltb (costPerUse i) 1); [lra |].
    destruct (ltb (costPerUse i) 3); lra. }
  assert (Hu : clamp
      ((4 # 10) * needLevel i * 10 + (35 # 100) * useFrequency i * 8
       + (25 # 100) * joyScore i * 10 + (if workRelated i then 10 else 0)
       + (if resaleAggressive i
          then Math_min 10 (resaleOffset i / Math_max 1 (stickerCost i) * 50)
          else 0))
    <= utilityScore i).
  { unfold utilityScore. cbv zeta. apply clamp_mono. lra. }
  pose proof (mul_mono_l (wFinancial i) _ _ Hwf Hf) as Hf'.
  destruct (Qlt_le_dec (wUtility i) 0) as [Hneg | Hpos].
  - assert (Hu' : utilityScore i <= clamp
      ((4 # 10) * needLevel i * 10 + (35 # 100) * useFrequency i * 8
       + (25 # 100) * joyScore i * 10 + (if workRelated i then 10 else 0)
       + (if resaleAggressive i
          then Math_min 10 (resaleOffset i / Math_max 1 (stickerCost i) * 50)
          else 0))).
    { unfold utilityScore. cbv zeta. apply clamp_mono. lra. }
    assert (Heq : wUtility i * clamp
      ((4 # 10) * needLevel i * 10 + (35 # 100) * useFrequency i * 8
       + (25 # 100) * joyScore i * 10 + (if workRelated i then 10 else 0)
       + (if resaleAggressive i
          then Math_min 10 (resaleOffset i / Math_max 1 (stickerCost i) * 50)
          else 0)) == wUtility i * utilityScore i).
    { apply Qmult_comp; [reflexivity |]. apply Qle_antisym; assumption. }
    lra.
  - pose proof (mul_mono_l (wUtility i) _ _ Hpos Hu) as Hu2. lra.
Qed.

(** With non-negative financial and utility weights, two of the three
    comparisons of the sensitivity table hold: the no-resale score is at
    most the live score and at most the best-resale score. *)
Lemma noResale_is_lowest (i : ItemInputs) :
  0 <= wFinancial i -> 0 <= wUtility i -> 0 <= expectSalePrice i ->
  noResale (sensitivity i) <= current (sensitivity i) /\
  noResale (sensitivity i) <= bestResale (sensitivity i).
Proof.
  intros Hwf Hwu He. unfold sensitivity. cbn [noResale current bestResale].
  split.
  - apply Qle_trans with (scoreFor i (stickerCost i) (resaleOffset i)).
    + apply scoreFor_mono_offset; try assumption. apply resaleOffset_nonneg.
    + apply scoreFor_live_le_decisionScore, Hwf.
  - apply scoreFor_mono_offset; try assumption. apply bestOffset_nonneg.
Qed.

(** C3 on the initial form state.  The live offset 64.5 lies between 0 and
    the best-case offset 102.5, yet the best-resale score 55 is below the
    live score 58 (the no-resale score is 54): [scoreFor] leaves out the
    per-use bonus that [financialScore] adds (8 here, the cost per use being
    below 1). *)
Theorem sensitivity_order_broken_at_defaults :
  (0 <= resaleOffset initialInputs /\
   resaleOffset initialInputs <= bestOffset initialInputs) /\
  costPerUse initialInputs < 1 /\
  current (sensitivity initialInputs) == 58 /\
  bestResale (sensitivity initialInputs) == 55 /\
  noResale (sensitivity initialInputs) == 54 /\
  scoreFor initialInputs (stickerCost initialInputs)
    (resaleOffset initialInputs) == 55 /\
  ~ (current (sensitivity initialInputs)
       <= bestResale (sensitivity initialInputs)).
Proof.
  split; [split; vm_compute; discriminate |].
  split; [vm_compute; reflexivity |].
  split; [vm_compute; reflexivity |].
  split; [vm_compute; reflexivity |].
  split; [vm_compute; reflexivity |].
  split; [vm_compute; reflexivity |].
  vm_compute. intro H. apply H. reflexivity.
Qed.

(** ** The worked example *)

Section WorkedExample.

Import PrimFloat.
#[local] Set Warnings "-inexact-float".

(** The binary64 replay of the scenario: every intermediate value is the
    exact float, and the engine's offset is bit for bit the value of the
    specification's formula. *)
Lemma scenario_binary64 :
  F64.stickerCost F64.scenario = 565%float /\
  F64.adjSaleProb F64.scenario = 84%float /\
  F64.adjSalePrice F64.scenario = 237.5%float /\
  F64.adjTimeHours F64.scenario = 2%float /\
  F64.resaleOffset F64.scenario = F64.scenarioOffsetFormula /\
  F64.resaleOffset F64.scenario = 64.5%float.
Proof. repeat split; vm_compute; reflexivity. Qed.

(** C8.  For price 500, tax 13%, expected sale price 250, sale probability
    80%, condition "like_new", demand "medium", fees 25, shipping 20, two
    hours at 40 per hour and friction 10 (whatever the other cells), the
    sticker cost is 565, the adjusted probability 84, the adjusted sale
    price 237.5, the adjusted hours 2 and the resale offset is
    max(0, 237.5*0.84 - 25 - 20 - 2*40 - 10) = 64.5; the same values come out
    exactly in binary64 arithmetic. *)
Theorem worked_example :
  forall i : ItemInputs,
    price i = 500 -> taxRatePct i = 13 ->
    expectSalePrice i = 250 -> saleProbabilityPct i = 80 ->
    condKey i = "like_new"%string -> demandKey i = "medium"%string ->
    platformFees i = 25 -> shipCost i = 20 ->
    timeHours i = 2 -> hourlyValue i = 40 -> friction i = 10 ->
    (stickerCost i == 565 /\
     adjSaleProb i == 84 /\
     adjSalePrice i == 2375 # 10 /\
     adjTimeHours i == 2 /\
     resaleOffset i
       == Math_max 0 ((2375 # 10) * (84 # 100) - 25 - 20 - 2 * 40 - 10) /\
     resaleOffset i == 645 # 10) /\
    (F64.stickerCost F64.scenario = 565%float /\
     F64.adjSaleProb F64.scenario = 84%float /\
     F64.adjSalePrice F64.scenario = 237.5%float /\
     F64.adjTimeHours F64.scenario = 2%float /\
     F64.resaleOffset F64.scenario = F64.scenarioOffsetFormula /\
     F64.resaleOffset F64.scenario = 64.5%float).
Proof.
  intros i Hp Ht He Hs Hc Hd Hf Hsh Hh Hv Hfr.
  split; [| exact scenario_binary64].
  unfold resaleOffset, adjSaleProb, adjSalePrice, adjTimeHours, stickerCost,
    taxFor, cond, demand.
  cbv zeta.
  rewrite Hp, Ht, He, Hs, Hc, Hd, Hf, Hsh, Hh, Hv, Hfr.
  repeat split; vm_compute; reflexivity.
Qed.

Lemma worked_example_witness :
  stickerCost initialInputs == 565 /\
  adjSaleProb initialInputs == 84 /\
  adjSalePrice initialInputs == 2375 # 10 /\
  adjTimeHours initialInputs == 2 /\
  resaleOffset initialInputs == 645 # 10.
Proof.
  destruct (worked_example initialInputs
              eq_refl eq_refl eq_refl eq_refl eq_refl eq_refl
              eq_refl eq_refl eq_refl eq_refl eq_refl)
    as [[H1 [H2 [H3 [H4 [_ H5]]]]] _].
  repeat split; assumption.
Defined.

End WorkedExample.


(** * Further properties of the component *)

(** ** More order facts *)

Lemma clamp_id (v : Q) : 0 <= v -> v <= 100 -> clamp v == v.
Proof.
  intros H0 H1. unfold clamp, clamp3, Math_max, Math_min.
  rewrite (Q.min_r 100 v H1). apply Q.max_r, H0.
Qed.

Lemma clamp_add_le (v c : Q) : 0 <= c -> clamp (v + c) <= clamp v + c.
Proof.
  intro Hc. unfold clamp, clamp3, Math_max, Math_min.
  pose proof (Q.le_max_l 0 (Qmin 100 v)) as H0.
  pose proof (Q.le_max_r 0 (Qmin 100 v)) as H1.
  pose proof (Q.le_min_l 100 (v + c)) as H2.
  pose proof (Q.le_min_r 100 (v + c)) as H3.
  assert (H4 : Qmin 100 (v + c) <= Qmin 100 v + c).
  { destruct (Q.min_spec 100 v) as [[_ E] | [_ E]]; rewrite E; lra. }
  apply Q.max_lub; lra.
Qed.





Lemma div_nonneg (o m : Q) : 0 <= o -> 0 < m -> 0 <= o / m.
Proof. intros Ho Hm. apply Qle_shift_div_l; [exact Hm | lra]. Qed.

(** ** Per-use cost *)

Lemma totalExpectedUses_ge_1 (i : ItemInputs) : 1 <= totalExpectedUses i.
Proof. unfold totalExpectedUses. apply Math_max_l. Qed.

(** X1.  The number of expected uses is floored at 1, so the cost per use
    is never negative and never above the effective cost; with at most one
    expected use it is the whole effective cost. *)
Theorem costPerUse_bounds :
  forall i : ItemInputs,
    1 <= totalExpectedUses i /\
    0 <= costPerUse i /\
    costPerUse i <= effectiveCost i /\
    (usesPerWeek i * (433 # 100) * monthsOwn i <= 1 ->
     costPerUse i == effectiveCost i).
Proof.
  intro i.
  pose proof (totalExpectedUses_ge_1 i) as HT.
  pose proof (effectiveCost_nonneg i) as He.
  assert (Hpos : 0 < totalExpectedUses i) by lra.
  split; [exact HT |].
  split; [apply div_nonneg; assumption |].
  split.
  - unfold costPerUse. apply Qle_shift_div_r; [exact Hpos |].
    pose proof (mul_mono_l (effectiveCost i) 1 (totalExpectedUses i) He HT).
    lra.
  - intro Hu. unfold costPerUse.
    assert (E : totalExpectedUses i == 1).
    { unfold totalExpectedUses, Math_max. apply Q.max_l, Hu. }
    rewrite E. field.
Qed.

(** X2.  The effective cost is never below sticker cost minus offset; it is
    exactly that difference while the offset does not exceed the sticker
    cost, and zero once it does. *)
Theorem effectiveCost_accounting :
  forall i : ItemInputs,
    stickerCost i - resaleOffset i <= effectiveCost i /\
    (resaleOffset i <= stickerCost i ->
     effectiveCost i == stickerCost i - resaleOffset i) /\
    (stickerCost i <= resaleOffset i -> effectiveCost i == 0).
Proof.
  intro i. unfold effectiveCost, Math_max.
  split; [apply Q.le_max_r |].
  split; intro H.
  - apply Q.max_r. lra.
  - apply Q.max_l. lra.
Qed.

(** ** The per-use badge *)

(** X3.  The badge is read off the cost per use by bands whose upper bounds
    are exclusive: below 1 "stellar per-use" (green), below 3 "good
    per-use" (blue), below 7 "ok per-use" (yellow), otherwise "weak
    per-use" (red); a cost per use of exactly 1, 3 or 7 falls in the
    costlier band. *)
Theorem perUseBadge_banding :
  forall c : Q,
    (c < 1 ->
     perUseBadgeOf c = {| badgeTone := green; text := "stellar per-use" |}) /\
    (1 <= c -> c < 3 ->
     perUseBadgeOf c = {| badgeTone := blue; text := "good per-use" |}) /\
    (3 <= c -> c < 7 ->
     perUseBadgeOf c = {| badgeTone := yellow; text := "ok per-use" |}) /\
    (7 <= c ->
     perUseBadgeOf c = {| badgeTone := red; text := "weak per-use" |}).
Proof.
  intro c. unfold perUseBadgeOf.
  destruct (ltb c 1) eqn:E1; [apply ltb_true in E1 |];
  destruct (ltb c 3) eqn:E3; try apply ltb_true in E3;
  destruct (ltb c 7) eqn:E7; try apply ltb_true in E7;
  repeat split; intros; try reflexivity; exfalso;
  repeat match goal with
  | H : ltb ?a ?b = false |- _ =>
      assert (b <= a)
        by (apply Qnot_lt_le; intro Hc; apply ltb_true in Hc; congruence);
      clear H
  end; lra.
Qed.

Example perUseBadge_examples :
  text (perUseBadge initialInputs) = "stellar per-use"%string /\
  text (perUseBadge rareUse) = "ok per-use"%string /\
  text (perUseBadgeOf 1) = "good per-use"%string /\
  text (perUseBadgeOf 3) = "ok per-use"%string /\
  text (perUseBadgeOf 7) = "weak per-use"%string.
Proof. repeat split. Qed.

(** ** Score bars *)

Lemma max_min_integer (k : Z) :
  exists n : Z, Math_max 0 (Math_min 100 (inject_Z k)) = inject_Z n.
Proof.
  unfold Math_max, Math_min, Qmax, Qmin, GenericMinMax.gmax,
    GenericMinMax.gmin.
  destruct (100 ?= inject_Z k).
  - destruct (0 ?= 100); [exists 0%Z | exists 100%Z | exists 0%Z]; reflexivity.
  - destruct (0 ?= 100); [exists 0%Z | exists 100%Z | exists 0%Z]; reflexivity.
  - destruct (0 ?= inject_Z k); [exists 0%Z | exists k | exists 0%Z];
      reflexivity.
Qed.

(** X4.  Whatever value a score bar is given, the number it shows is an
    integer between 0 and 100; it never decreases when the value grows, and
    for a value already between 0 and 100 it is [Math.round] of the value,
    with nothing cut off. *)
Theorem scoreBarValue_spec :
  forall v : Q,
    (exists n : Z, scoreBarValue v = inject_Z n /\ (0 <= n <= 100)%Z) /\
    (forall v' : Q, v <= v' -> scoreBarValue v <= scoreBarValue v') /\
    (0 <= v -> v <= 100 -> scoreBarValue v == Math_round v).
Proof.
  intro v.
  assert (Hr : 0 <= scoreBarValue v /\ scoreBarValue v <= 100)
    by (apply (clamp3_bounds (Math_round v) 0 100); discriminate).
  split; [| split].
  - unfold scoreBarValue in *. unfold Math_round in *.
    destruct (max_min_integer (Qfloor (v + (1 # 2)))) as [n Hn].
    exists n. split; [exact Hn |].
    rewrite Hn in Hr. destruct Hr as [H0 H1].
    split; rewrite Zle_Qle; assumption.
  - intros v' H. unfold scoreBarValue.
    apply Math_max_mono, Math_min_mono, Math_round_mono, H.
  - intros H0 H1. destruct (Math_round_bounds v H0 H1) as [R0 R1].
    apply (clamp_id (Math_round v) R0 R1).
Qed.

Example scoreBarValue_examples :
  scoreBarValue (889 # 10) == 89 /\
  scoreBarValue 120 == 100 /\
  scoreBarValue (-30) == 0 /\
  scoreBarValue (5 # 2) == 3.
Proof. repeat split. Qed.

(** ** The sensitivity table, continued *)

















(** ** Weights *)




(** ** The aggressive-resale switch *)

Section AggressiveFrame.

Variables (i : ItemInputs) (v : bool).

Lemma effectiveCost_setResaleAggressive :
  effectiveCost (setResaleAggressive v i) = effectiveCost i.
Proof. frame_aggressive. Qed.

Lemma resaleOffset_setResaleAggressive :
  resaleOffset (setResaleAggressive v i) = resaleOffset i.
Proof. frame_aggressive. Qed.

Lemma stickerCost_setResaleAggressive :
  stickerCost (setResaleAggressive v i) = stickerCost i.
Proof. frame_aggressive. Qed.

Lemma costPerUse_setResaleAggressive :
  costPerUse (setResaleAggressive v i) = costPerUse i.
Proof. frame_aggressive. Qed.

Lemma riskScore_setResaleAggressive :
  riskScore (setResaleAggressive v i) = riskScore i.
Proof. unfold riskScore. project_aggressive. reflexivity. Qed.

End AggressiveFrame.

Lemma resale_ratio_nonneg (i : ItemInputs) :
  0 <= resaleOffset i / Math_max 1 (stickerCost i).
Proof.
  apply div_nonneg; [apply resaleOffset_nonneg | apply Math_max_one_gt0].
Qed.

Lemma financialScore_aggressive (i : ItemInputs) :
  financialScore (setResaleAggressive false i)
    <= financialScore (setResaleAggressive true i) /\
  financialScore (setResaleAggressive true i)
    <= financialScore (setResaleAggressive false i) + 20.
Proof.
  unfold financialScore. cbv zeta.
  rewrite !effectiveCost_setResaleAggressive,
    !resaleOffset_setResaleAggressive, !stickerCost_setResaleAggressive,
    !costPerUse_setResaleAggressive.
  project_aggressive.
  destruct (clamp_bounds (resaleOffset i / Math_max 1 (stickerCost i) * 100))
    as [B0 B1].
  split.
  - apply clamp_mono. lra.
  - eapply Qle_trans; [| apply clamp_add_le; discriminate].
    apply clamp_mono. lra.
Qed.

Lemma utilityScore_aggressive (i : ItemInputs) :
  utilityScore (setResaleAggressive false i)
    <= utilityScore (setResaleAggressive true i) /\
  utilityScore (setResaleAggressive true i)
    <= utilityScore (setResaleAggressive false i) + 10.
Proof.
  unfold utilityScore. cbv zeta.
  rewrite !resaleOffset_setResaleAggressive, !stickerCost_setResaleAggressive.
  project_aggressive.
  pose proof (resale_ratio_nonneg i) as Hq.
  assert (N0 : 0 <= Math_min 10
                      (resaleOffset i / Math_max 1 (stickerCost i) * 50))
    by (apply Q.min_glb; lra).
  assert (N1 : Math_min 10 (resaleOffset i / Math_max 1 (stickerCost i) * 50)
               <= 10) by apply Q.le_min_l.
  split.
  - apply clamp_mono. lra.
  - eapply Qle_trans; [| apply clamp_add_le; discriminate].
    apply clamp_mono. lra.
Qed.

(** X10.  Switching the aggressive resale influence on never lowers the
    financial score and raises it by at most 20, never lowers the utility
    score and raises it by at most 10, leaves the risk score unchanged, and
    so never lowers the decision score when the financial and utility
    weights are non-negative. *)
Theorem aggressive_switch_effect :
  forall i : ItemInputs,
    (financialScore (setResaleAggressive false i)
       <= financialScore (setResaleAggressive true i) /\
     financialScore (setResaleAggressive true i)
       <= financialScore (setResaleAggressive false i) + 20) /\
    (utilityScore (setResaleAggressive false i)
       <= utilityScore (setResaleAggressive true i) /\
     utilityScore (setResaleAggressive true i)
       <= utilityScore (setResaleAggressive false i) + 10) /\
    riskScore (setResaleAggressive true i)
      = riskScore (setResaleAggressive false i) /\
    (0 <= wFinancial i -> 0 <= wUtility i ->
     decisionScore (setResaleAggressive false i)
       <= decisionScore (setResaleAggressive true i)).
Proof.
  intro i.
  pose proof (financialScore_aggressive i) as Hf.
  pose proof (utilityScore_aggressive i) as Hu.
  split; [exact Hf |]. split; [exact Hu |].
  split; [rewrite !riskScore_setResaleAggressive; reflexivity |].
  intros Hwf Hwu. unfold decisionScore. cbv zeta.
  rewrite !riskScore_setResaleAggressive.
  cbn [wFinancial wUtility wRisk setResaleAggressive].
  apply Math_round_mono, clamp_mono.
  apply weighted_mono; tauto.
Qed.

Example aggressive_switch_example :
  financialScore (setResaleAggressive false initialInputs) == 6509 # 100 /\
  financialScore (setResaleAggressive true initialInputs)
    < financialScore (setResaleAggressive false initialInputs) + 3 /\
  decisionScore (setResaleAggressive false initialInputs) == 58 /\
  decisionScore (setResaleAggressive true initialInputs) == 62.
Proof. repeat split; vm_compute; reflexivity. Qed.

(** ** A certain sale *)

Lemma adjSaleProb_saturated (i : ItemInputs) :
  100 <= saleProbabilityPct i * c_probMult (cond i) * d_probMult (demand i) ->
  adjSaleProb i == 100.
Proof.
  intro H. unfold adjSaleProb, clamp3, Math_max, Math_min.
  rewrite (Q.min_l 100 _ H). apply Q.max_r. discriminate.
Qed.

(** X11.  When the base sale probability times the condition and demand
    multipliers reaches 100, the adjusted probability is exactly 100 and
    the best-case offset equals the live resale offset. *)
Theorem certain_sale_best_is_live :
  forall i : ItemInputs,
    100 <= saleProbabilityPct i * c_probMult (cond i) * d_probMult (demand i) ->
    adjSaleProb i == 100 /\ bestOffset i == resaleOffset i.
Proof.
  intros i H. pose proof (adjSaleProb_saturated i H) as E.
  split; [exact E |].
  assert (Eg : adjSalePrice i * (adjSaleProb i / 100) == adjSalePrice i).
  { rewrite E. field. }
  unfold bestOffset, resaleOffset. cbv zeta.
  apply Qle_antisym; apply Math_max_mono; lra.
Qed.

Lemma certain_sale_best_is_live_witness :
  adjSaleProb certainSale == 100 /\
  bestOffset certainSale == resaleOffset certainSale.
Proof.
  apply (certain_sale_best_is_live certainSale). vm_compute. discriminate.
Defined.

(** ** Saved history *)

Section Replace.

Variables (A : Type) (p : A -> bool) (row : A).
Hypothesis p_row : p row = true.

Local Abbreviation replace := (fun e : A => if p e then row else e).

Lemma find_replace_hit (l : list A) (x : A) :
  find p l = Some x -> find p (map replace l) = Some row.
Proof.
  induction l as [| e l IH]; simpl; [discriminate |].
  destruct (p e) eqn:E.
  - intros _. rewrite p_row. reflexivity.
  - rewrite E. exact IH.
Qed.

Lemma map_replace_miss (l : list A) :
  find p l = None -> map replace l = l.
Proof.
  induction l as [| e l IH]; simpl; [reflexivity |].
  destruct (p e) eqn:E; [discriminate |].
  intro H. rewrite (IH H). reflexivity.
Qed.

Lemma map_replace_idem (l : list A) :
  map replace (map replace l) = map replace l.
Proof.
  induction l as [| e l IH]; simpl; [reflexivity |].
  rewrite IH. f_equal.
  destruct (p e) eqn:E; [rewrite p_row | rewrite E]; reflexivity.
Qed.

Lemma find_replace_other (q : A -> bool) (l : list A) :
  (forall e, p e = true -> q e = false) ->
  find q (map replace l) = find q l.
Proof.
  intro Hq. induction l as [| e l IH]; simpl; [reflexivity |].
  destruct (p e) eqn:E.
  - rewrite (Hq row p_row), (Hq e E). exact IH.
  - rewrite IH. reflexivity.
Qed.

Lemma find_filter_out (l : list A) :
  find p (filter (fun e => negb (p e)) l) = None.
Proof.
  induction l as [| e l IH]; simpl; [reflexivity |].
  destruct (p e) eqn:E; simpl; [exact IH | rewrite E; exact IH].
Qed.

Lemma find_filter_other (q : A -> bool) (l : list A) :
  (forall e, p e = true -> q e = false) ->
  find q (filter (fun e => negb (p e)) l) = find q l.
Proof.
  intro Hq. induction l as [| e l IH]; simpl; [reflexivity |].
  destruct (p e) eqn:E; simpl.
  - rewrite (Hq e E). exact IH.
  - rewrite IH. reflexivity.
Qed.

Lemma filter_out_miss (l : list A) :
  find p l = None -> filter (fun e => negb (p e)) l = l.
Proof.
  induction l as [| e l IH]; simpl; [reflexivity |].
  destruct (p e) eqn:E; [discriminate |].
  intro H. simpl. rewrite (IH H). reflexivity.
Qed.

End Replace.

Lemma hasId_true (id : string) (e : Entry) : hasId id e = true <-> e_id e = id.
Proof. unfold hasId. apply String.eqb_eq. Qed.

Lemma hasId_other (id id' : string) (e : Entry) :
  id' <> id -> hasId id e = true -> hasId id' e = false.
Proof.
  intros Hne H. apply hasId_true in H. unfold hasId.
  apply String.eqb_neq. congruence.
Qed.

Lemma find_hasId_none (id : string) (l : list Entry) :
  find (hasId id) l = None <-> ~ In id (map e_id l).
Proof.
  induction l as [| e l IH]; simpl.
  - split; [intros _ [] | reflexivity].
  - destruct (hasId id e) eqn:E.
    + apply hasId_true in E. split; [discriminate |].
      intro H. exfalso. apply H. left. exact E.
    + rewrite IH. split.
      * intros H [H1 | H1]; [| exact (H H1)].
        apply hasId_true in H1. congruence.
      * intros H H1. apply H. right. exact H1.
Qed.

Lemma map_id_replace (id : string) (row : Entry) (l : list Entry) :
  e_id row = id ->
  map e_id (map (fun e => if hasId id e then row else e) l) = map e_id l.
Proof.
  intro Hr. induction l as [| e l IH]; simpl; [reflexivity |].
  rewrite IH. f_equal.
  destruct (hasId id e) eqn:E; [| reflexivity].
  apply hasId_true in E. congruence.
Qed.

Lemma hasId_saveRow (t0 t1 : Z) (a : AppState) :
  hasId (saveId t0 a) (saveRow t0 t1 a) = true.
Proof. unfold hasId, saveRow. cbn [e_id]. apply String.eqb_refl. Qed.

Lemma activeId_saveEntry (t0 t1 : Z) (a : AppState) :
  activeId (saveEntry t0 t1 a) = Some (saveId t0 a).
Proof.
  unfold saveEntry. cbn [activeId]. unfold noActiveId, saveId.
  destruct (activeId a) as [x |]; [| reflexivity].
  destruct (String.eqb x "") eqn:E; reflexivity.
Qed.

Lemma find_saveEntry (t0 t1 : Z) (a : AppState) :
  find (hasId (saveId t0 a)) (entries (saveEntry t0 t1 a))
  = Some (saveRow t0 t1 a).
Proof.
  unfold saveEntry. cbn [entries].
  destruct (find (hasId (saveId t0 a)) (entries a)) as [x |] eqn:E.
  - apply (find_replace_hit _ _ _ (hasId_saveRow t0 t1 a) _ x E).
  - simpl. rewrite hasId_saveRow. reflexivity.
Qed.

Lemma find_saveEntry_other (t0 t1 : Z) (a : AppState) (id' : string) :
  id' <> saveId t0 a ->
  find (hasId id') (entries (saveEntry t0 t1 a))
  = find (hasId id') (entries a).
Proof.
  intro Hne. unfold saveEntry. cbn [entries].
  destruct (find (hasId (saveId t0 a)) (entries a)) as [x |] eqn:E.
  - apply (find_replace_other _ _ _ (hasId_saveRow t0 t1 a)).
    intros e He. exact (hasId_other _ _ e Hne He).
  - simpl. rewrite (hasId_other _ _ _ Hne (hasId_saveRow t0 t1 a)).
    reflexivity.
Qed.

(** X12.  After [saveEntry] the saved id is the active one, looking that
    id up in the history gives the row just built (a copy of the form),
    the form itself is unchanged, and the lookup of every other id gives
    what it gave before. *)
Theorem saveEntry_lookup :
  forall (t0 t1 : Z) (a : AppState),
    activeId (saveEntry t0 t1 a) = Some (saveId t0 a) /\
    find (hasId (saveId t0 a)) (entries (saveEntry t0 t1 a))
      = Some (saveRow t0 t1 a) /\
    e_inputs (saveRow t0 t1 a) = form a /\
    form (saveEntry t0 t1 a) = form a /\
    (forall id' : string,
       id' <> saveId t0 a ->
       find (hasId id') (entries (saveEntry t0 t1 a))
       = find (hasId id') (entries a)).
Proof.
  intros t0 t1 a.
  split; [apply activeId_saveEntry |].
  split; [apply find_saveEntry |].
  split; [reflexivity |].
  split; [reflexivity |].
  intros id' H. apply find_saveEntry_other, H.
Qed.

Lemma ids_saveEntry (t0 t1 : Z) (a : AppState) :
  map e_id (entries (saveEntry t0 t1 a))
  = match find (hasId (saveId t0 a)) (entries a) with
    | Some _ => map e_id (entries a)
    | None => saveId t0 a :: map e_id (entries a)
    end.
Proof.
  unfold saveEntry. cbn [entries].
  destruct (find (hasId (saveId t0 a)) (entries a)) as [x |] eqn:E.
  - apply map_id_replace. reflexivity.
  - reflexivity.
Qed.

Lemma NoDup_ids_saveEntry (t0 t1 : Z) (a : AppState) :
  NoDup (map e_id (entries a)) ->
  NoDup (map e_id (entries (saveEntry t0 t1 a))).
Proof.
  intro H. rewrite ids_saveEntry.
  destruct (find (hasId (saveId t0 a)) (entries a)) as [x |] eqn:E.
  - exact H.
  - constructor; [apply find_hasId_none, E | exact H].
Qed.

Lemma NoDup_ids_deleteEntry (id : string) (a : AppState) :
  NoDup (map e_id (entries a)) ->
  NoDup (map e_id (entries (deleteEntry id a))).
Proof.
  unfold deleteEntry. cbn [entries].
  induction (entries a) as [| e l IH]; simpl; intro H; [constructor |].
  inversion H as [| ? ? Hn Hl]; subst.
  destruct (hasId id e); simpl; [exact (IH Hl) |].
  constructor; [| exact (IH Hl)].
  intro Hin. apply Hn.
  apply in_map_iff in Hin. destruct Hin as [x [Hx Hf]].
  apply filter_In in Hf. apply in_map_iff. exists x. tauto.
Qed.

(** X13.  Every action keeps the ids of the history pairwise distinct:
    saving either overwrites the rows that carry the saved id or puts one
    new row in front, deleting only removes rows, and loading, renaming and
    resetting leave the history as it is. *)
Theorem history_ids_distinct_preserved :
  forall a : AppState,
    NoDup (map e_id (entries a)) ->
    (forall t0 t1 : Z, NoDup (map e_id (entries (saveEntry t0 t1 a)))) /\
    (forall id : string, NoDup (map e_id (entries (deleteEntry id a)))) /\
    (forall e : Entry, NoDup (map e_id (entries (loadEntry e a)))) /\
    (forall e : Entry, NoDup (map e_id (entries (renameViaItem e a)))) /\
    NoDup (map e_id (entries (resetForm a))).
Proof.
  intros a H.
  split; [intros; apply NoDup_ids_saveEntry, H |].
  split; [intros; apply NoDup_ids_deleteEntry, H |].
  repeat split; intros; exact H.
Qed.

Lemma history_ids_distinct_preserved_witness :
  NoDup (map e_id (entries initialApp)) /\
  NoDup (map e_id (entries (saveEntry 7 8 (resetForm
                             (saveEntry 5 6 initialApp))))).
Proof.
  assert (H0 : NoDup (map e_id (entries initialApp))) by constructor.
  split; [exact H0 |].
  apply (history_ids_distinct_preserved
           (resetForm (saveEntry 5 6 initialApp))).
  apply (history_ids_distinct_preserved (saveEntry 5 6 initialApp)).
  apply (history_ids_distinct_preserved initialApp H0).
Defined.

(** X14.  After [deleteEntry id] no row with that id is left, the lookup of
    every other id gives what it gave before, the active id is not
    touched, and deleting an id that is not in the history changes
    nothing. *)
Theorem deleteEntry_spec :
  forall (id : string) (a : AppState),
    find (hasId id) (entries (deleteEntry id a)) = None /\
    (forall id' : string,
       id' <> id ->
       find (hasId id') (entries (deleteEntry id a))
       = find (hasId id') (entries a)) /\
    activeId (deleteEntry id a) = activeId a /\
    (~ In id (map e_id (entries a)) ->
     entries (deleteEntry id a) = entries a).
Proof.
  intros id a. unfold deleteEntry. cbn [entries activeId].
  split; [apply find_filter_out |].
  split.
  - intros id' Hne. apply find_filter_other.
    intros e He. exact (hasId_other _ _ e Hne He).
  - split; [reflexivity |].
    intro H. apply filter_out_miss, find_hasId_none, H.
Qed.

(** X15.  Round trip: the row found under the saved id after [saveEntry],
    loaded back with [loadEntry] into any state, restores the form that was
    saved and makes the saved id active; the outputs stored in the row are
    the ones the engine computes from the restored form. *)
Theorem save_load_round_trip :
  forall (t0 t1 : Z) (a : AppState),
    exists e : Entry,
      find (hasId (saveId t0 a)) (entries (saveEntry t0 t1 a)) = Some e /\
      forall b : AppState,
        form (loadEntry e b) = form a /\
        activeId (loadEntry e b) = Some (saveId t0 a) /\
        entries (loadEntry e b) = entries b /\
        o_decisionScore (e_outputs e)
          = decisionScore (cells (form (loadEntry e b))) /\
        o_verdict (e_outputs e)
          = label (verdict (cells (form (loadEntry e b)))) /\
        o_effectiveCost (e_outputs e)
          = effectiveCost (cells (form (loadEntry e b))) /\
        o_resaleOffset (e_outputs e)
          = resaleOffset (cells (form (loadEntry e b))) /\
        o_costPerUse (e_outputs e)
          = costPerUse (cells (form (loadEntry e b))).
Proof.
  intros t0 t1 a. exists (saveRow t0 t1 a).
  split; [apply find_saveEntry |].
  intro b. unfold loadEntry, saveRow.
  cbn [form activeId entries e_inputs e_id e_outputs o_decisionScore
       o_verdict o_effectiveCost o_resaleOffset o_costPerUse].
  repeat split.
Qed.

Lemma saveRow_after_save (t0 t0' t1 : Z) (a : AppState) :
  saveRow t0' t1 (saveEntry t0 t1 a) = saveRow t0 t1 a.
Proof.
  unfold saveRow, saveId at 1. rewrite activeId_saveEntry.
  unfold saveEntry. cbn [form]. reflexivity.
Qed.

(** X16.  Saving twice in a row is the same as saving once: with the same
    creation time the second [saveEntry] leaves the state exactly as the
    first one made it, whatever the clock reads for the id. *)
Theorem saveEntry_idempotent :
  forall (t0 t0' t1 : Z) (a : AppState),
    saveEntry t0' t1 (saveEntry t0 t1 a) = saveEntry t0 t1 a.
Proof.
  intros t0 t0' t1 a.
  pose proof (activeId_saveEntry t0 t1 a) as Hact.
  pose proof (find_saveEntry t0 t1 a) as Hfind.
  pose proof (saveRow_after_save t0 t0' t1 a) as Hrow.
  assert (Hid : saveId t0' (saveEntry t0 t1 a) = saveId t0 a)
    by (unfold saveId at 1; rewrite Hact; reflexivity).
  unfold saveEntry at 1. rewrite Hrow, Hid, Hfind.
  assert (Hent : map (fun e => if hasId (saveId t0 a) e
                               then saveRow t0 t1 a else e)
                   (entries (saveEntry t0 t1 a))
                 = entries (saveEntry t0 t1 a)).
  { unfold saveEntry. cbn [entries].
    destruct (find (hasId (saveId t0 a)) (entries a)) as [x |] eqn:E.
    - apply map_replace_idem, hasId_saveRow.
    - simpl. rewrite hasId_saveRow.
      rewrite (map_replace_miss _ _ _ _ E). reflexivity. }
  rewrite Hent.
  assert (Hact' : (if noActiveId (saveEntry t0 t1 a)
                   then Some (saveId t0 a)
                   else activeId (saveEntry t0 t1 a))
                  = activeId (saveEntry t0 t1 a)).
  { rewrite Hact. destruct (noActiveId _); reflexivity. }
  rewrite Hact'.
  unfold saveEntry. cbn [form entries activeId]. reflexivity.
Qed.

(** X17.  Deleting the active entry does not clear the active id, so the
    next save writes a row under the deleted id again, in front of the
    remaining rows. *)
Theorem save_after_deleting_active :
  forall (t0 t1 : Z) (id : string) (a : AppState),
    activeId a = Some id ->
    activeId (deleteEntry id a) = Some id /\
    entries (saveEntry t0 t1 (deleteEntry id a))
      = saveRow t0 t1 a :: entries (deleteEntry id a) /\
    e_id (saveRow t0 t1 a) = id.
Proof.
  intros t0 t1 id a Ha.
  assert (Hid : saveId t0 (deleteEntry id a) = id).
  { unfold saveId, deleteEntry. cbn [activeId]. rewrite Ha. reflexivity. }
  assert (Hid' : saveId t0 a = id) by (unfold saveId; rewrite Ha; reflexivity).
  split; [exact Ha |].
  split.
  - unfold saveEntry at 1. cbn [entries]. rewrite Hid.
    change (entries (deleteEntry id a))
      with (filter (fun e => negb (hasId id e)) (entries a)).
    rewrite (find_filter_out _ (hasId id) (entries a)).
    f_equal.
  - unfold saveRow. cbn [e_id]. exact Hid'.
Qed.

Lemma save_after_deleting_active_witness :
  activeId (saveEntry 5 6 initialApp) = Some "5"%string /\
  entries (saveEntry 7 8 (deleteEntry "5" (saveEntry 5 6 initialApp)))
    = [saveRow 7 8 (saveEntry 5 6 initialApp)] /\
  e_id (saveRow 7 8 (saveEntry 5 6 initialApp)) = "5"%string.
Proof.
  assert (Ha : activeId (saveEntry 5 6 initialApp) = Some "5"%string)
    by reflexivity.
  split; [exact Ha |].
  exact (proj2 (save_after_deleting_active 7 8 "5"
                  (saveEntry 5 6 initialApp) Ha)).
Defined.

Lemma saveRow_name_nonempty (t0 t1 : Z) (a : AppState) :
  e_name (saveRow t0 t1 a) <> ""%string.
Proof.
  unfold saveRow. cbn [e_name].
  destruct (String.eqb (itemName (form a)) "") eqn:E.
  - discriminate.
  - apply String.eqb_neq, E.
Qed.

(** X18.  Saving while no entry is active writes under the id made from the
    clock; when no row carries that id yet, the new row is put in front and
    the rest of the history is kept as it is.  The stored name is never
    empty: an empty item name is stored as "Untitled".  In particular this
    is what a save after [resetForm] does. *)
Theorem saveEntry_new :
  forall (t0 t1 : Z) (a : AppState),
    activeId a = None ->
    ~ In (timestampId t0) (map e_id (entries a)) ->
    entries (saveEntry t0 t1 a) = saveRow t0 t1 a :: entries a /\
    e_id (saveRow t0 t1 a) = timestampId t0 /\
    activeId (saveEntry t0 t1 a) = Some (timestampId t0) /\
    e_name (saveRow t0 t1 a) <> ""%string /\
    (itemName (form a) = ""%string ->
     e_name (saveRow t0 t1 a) = "Untitled"%string) /\
    entries (saveEntry t0 t1 (resetForm a))
      = saveRow t0 t1 (resetForm a) :: entries a.
Proof.
  intros t0 t1 a Ha Hfresh.
  assert (Hid : saveId t0 a = timestampId t0)
    by (unfold saveId; rewrite Ha; reflexivity).
  assert (Hnone : find (hasId (timestampId t0)) (entries a) = None)
    by (apply find_hasId_none, Hfresh).
  split.
  - unfold saveEntry. cbn [entries]. rewrite Hid, Hnone. reflexivity.
  - split; [unfold saveRow; cbn [e_id]; exact Hid |].
    split; [rewrite activeId_saveEntry, Hid; reflexivity |].
    split; [apply saveRow_name_nonempty |].
    split.
    + intro Hn. unfold saveRow. cbn [e_name]. rewrite Hn. reflexivity.
    + unfold saveEntry. cbn [entries].
      change (saveId t0 (resetForm a)) with (timestampId t0).
      change (entries (resetForm a)) with (entries a).
      rewrite Hnone. reflexivity.
Qed.

Lemma saveEntry_new_witness :
  entries (saveEntry 7 8 (resetForm (saveEntry 5 6 initialApp)))
    = saveRow 7 8 (resetForm (saveEntry 5 6 initialApp))
      :: entries (saveEntry 5 6 initialApp) /\
  e_name (saveRow 7 8 (resetForm (saveEntry 5 6 initialApp)))
    = "Untitled"%string.
Proof.
  assert (Ha : activeId (resetForm (saveEntry 5 6 initialApp)) = None)
    by reflexivity.
  assert (Hf : ~ In (timestampId 7)
                 (map e_id (entries (resetForm (saveEntry 5 6 initialApp))))).
  { simpl. intros [H | []]. discriminate H. }
  destruct (saveEntry_new 7 8 (resetForm (saveEntry 5 6 initialApp)) Ha Hf)
    as [H1 [_ [_ [_ [H2 _]]]]].
  split; [exact H1 | apply H2; reflexivity].
Defined.

Lemma timestampId_inj (t t' : Z) : timestampId t = timestampId t' -> t = t'.
Proof.
  intro H. unfold timestampId in H.
  assert (Hi : Some (Z.to_int t) = Some (Z.to_int t')).
  { rewrite <- (DecimalString.NilEmpty.isi (Z.to_int t)),
      <- (DecimalString.NilEmpty.isi (Z.to_int t')).
    rewrite H. reflexivity. }
  injection Hi as Hi.
  rewrite <- (DecimalZ.of_to t), <- (DecimalZ.of_to t'), Hi. reflexivity.
Qed.

(** X19.  Two different clock readings never give the same id, so a new
    entry saved at a reading that differs from the readings of the rows
    already in the history does not collide with them. *)
Theorem timestampId_distinct :
  forall t t' : Z, t <> t' -> timestampId t <> timestampId t'.
Proof.
  intros t t' Hne H. apply Hne, timestampId_inj, H.
Qed.

Lemma timestampId_distinct_witness :
  timestampId 1700000000000 <> timestampId 1700000000001.
Proof.
  apply (timestampId_distinct 1700000000000 1700000000001). discriminate.
Defined.

(** X20.  "Rename via Item" followed by a save overwrites the entry: the
    row then found under the entry's id carries the entry's item name but
    the numeric cells of the current form, not the ones the entry had. *)
Theorem rename_then_save :
  forall (t0 t1 : Z) (e : Entry) (a : AppState),
    exists row : Entry,
      find (hasId (e_id e))
           (entries (saveEntry t0 t1 (renameViaItem e a))) = Some row /\
      itemName (e_inputs row) = itemName (e_inputs e) /\
      cells (e_inputs row) = cells (form a) /\
      o_decisionScore (e_outputs row) = decisionScore (cells (form a)) /\
      activeId (saveEntry t0 t1 (renameViaItem e a)) = Some (e_id e).
Proof.
  intros t0 t1 e a.
  exists (saveRow t0 t1 (renameViaItem e a)).
  assert (Hid : saveId t0 (renameViaItem e a) = e_id e) by reflexivity.
  split; [rewrite <- Hid; apply find_saveEntry |].
  split; [reflexivity |].
  split; [reflexivity |].
  split; [reflexivity |].
  rewrite activeId_saveEntry, Hid. reflexivity.
Qed.
